(** * testcontainers-aerospike-go: the option functions, the launcher and the
      container handle of [aerospike.go], embedded and verified.

    The package arranges calls into the testcontainers framework.  The
    embedding keeps that shape: option functions are computations over the
    request a pointer designates (a nil pointer makes every field access
    panic, as in Go), and the launcher, the handle accessor and the
    post-start hook are finite trees of calls into the framework. *)

From Stdlib Require Import ZArith String List.
From stdpp Require Import base option list strings gmap.

Local Open Scope string_scope.

(** ** Go values: errors, panics, outcomes *)

(** A Go [error] value: a plain error carrying its message, or the result of
    [fmt.Errorf] with a [%w] verb, which carries its own message and the
    error it wraps. *)
Inductive error : Type :=
  | errorString (msg : string)
  | wrapError (msg : string) (err : error).

(** [err.Error()] *)
Definition Error (e : error) : string :=
  match e with
  | errorString msg => msg
  | wrapError msg _ => msg
  end.

(** [errors.Unwrap(err)] *)
Definition Unwrap (e : error) : option error :=
  match e with
  | errorString _ => None
  | wrapError _ err => Some err
  end.

(** [fmt.Errorf(prefix + "%w", err)]: the message is the prefix followed by
    the message of [err], and [err] is the wrapped error. *)
Definition Errorf_w (prefix : string) (err : error) : error :=
  wrapError (prefix +:+ Error err) err.

(** The run-time panics the code of this package can raise by itself. *)
Inductive panic : Type :=
  | nilPointerDereference    (* field access through a nil pointer *)
  | assignmentToNilMap.      (* m[k] = v on a nil map *)

(** A call either returns or panics. *)
Inductive outcome (A : Type) : Type :=
  | Returned (a : A)
  | Panicked (p : panic).
Arguments Returned {A} a.
Arguments Panicked {A} p.

(** ** Calls into the framework *)

(** A finite computation that returns, panics, or calls into its environment
    through an event of [E] and goes on with the answer. *)
Inductive program (E : Type -> Type) (A : Type) : Type :=
  | Ret (a : A)
  | Panic (p : panic)
  | Call {X : Type} (e : E X) (k : X -> program E A).
Arguments Ret {E A} a.
Arguments Panic {E A} p.
Arguments Call {E A X} e k.

(** The calls a computation makes, in order, when the environment answers
    each call as [answer] says. *)
Section Run.
Context {E : Type -> Type} (answer : forall X, E X -> X).

Fixpoint run {A} (t : program E A) : outcome A :=
  match t with
  | Ret a => Returned a
  | Panic p => Panicked p
  | Call e k => run (k (answer _ e))
  end.

Fixpoint count_calls {A} (t : program E A) : nat :=
  match t with
  | Ret _ | Panic _ => 0
  | Call e k => S (count_calls (k (answer _ e)))
  end.
End Run.

(** ** The testcontainers framework, as far as this package uses it *)

Module testcontainers.

(** What the framework declares and this package only passes around. *)
Class Framework : Type := {
  (** values of the framework's [Container] interface *)
  Container : Type;
  (** [wait.Strategy] *)
  Strategy : Type;
  (** [io.Reader] *)
  Reader : Type;
  (** [nat.Port.Int]: the numeric part of a port such as [32768/tcp] *)
  Port_Int : string -> Z;
  (** the fields of [ContainerLifecycleHooks] other than [PostStarts],
      and their zero value (every hook list nil) *)
  OtherHooks : Type;
  noOtherHooks : OtherHooks;
  (** the fields of [ContainerRequest] and of [GenericContainerRequest]
      that this package never names, and their zero value *)
  OtherFields : Type;
  zeroFields : OtherFields;
}.

Section Declarations.
Context `{Framework}.

(** The methods of the [Container] interface this package calls. *)
Inductive ContainerCall : Type -> Type :=
  | Exec (c : Container) (cmd : list string)
      : ContainerCall (Z * Reader * option error)
  | MappedPort (c : Container) (port : string)
      : ContainerCall (string * option error).

(** [type ContainerHook func(ctx, c Container) error] *)
Definition ContainerHook : Type :=
  Container -> program ContainerCall (option error).

Record ContainerLifecycleHooks : Type := {
  PostStarts : list ContainerHook;
  otherHooks : OtherHooks;
}.

Record ContainerRequest : Type := {
  Image : string;
  ExposedPorts : list string;
  (** a Go map: [None] is the nil map *)
  Env : option (gmap string string);
  (** an interface value: [None] is nil *)
  WaitingFor : option Strategy;
  LifecycleHooks : list ContainerLifecycleHooks;
  otherRequestFields : OtherFields;
}.

Record GenericContainerRequest : Type := {
  (** the embedded struct, whose fields Go promotes *)
  embedded : ContainerRequest;
  Started : bool;
  otherGenericFields : OtherFields;
}.

(** The framework entry point this package calls. *)
Inductive FrameworkCall : Type -> Type :=
  | GenericContainer (req : GenericContainerRequest)
      : FrameworkCall (Container * option error).

(** *** Field access and assignment on the embedded struct *)

Definition set_Image (v : string) (r : GenericContainerRequest)
  : GenericContainerRequest :=
  {| embedded :=
       {| Image := v;
          ExposedPorts := ExposedPorts (embedded r);
          Env := Env (embedded r);
          WaitingFor := WaitingFor (embedded r);
          LifecycleHooks := LifecycleHooks (embedded r);
          otherRequestFields := otherRequestFields (embedded r) |};
     Started := Started r;
     otherGenericFields := otherGenericFields r |}.

Definition set_Env (v : option (gmap string string))
    (r : GenericContainerRequest) : GenericContainerRequest :=
  {| embedded :=
       {| Image := Image (embedded r);
          ExposedPorts := ExposedPorts (embedded r);
          Env := v;
          WaitingFor := WaitingFor (embedded r);
          LifecycleHooks := LifecycleHooks (embedded r);
          otherRequestFields := otherRequestFields (embedded r) |};
     Started := Started r;
     otherGenericFields := otherGenericFields r |}.

Definition set_LifecycleHooks (v : list ContainerLifecycleHooks)
    (r : GenericContainerRequest) : GenericContainerRequest :=
  {| embedded :=
       {| Image := Image (embedded r);
          ExposedPorts := ExposedPorts (embedded r);
          Env := Env (embedded r);
          WaitingFor := WaitingFor (embedded r);
          LifecycleHooks := v;
          otherRequestFields := otherRequestFields (embedded r) |};
     Started := Started r;
     otherGenericFields := otherGenericFields r |}.

(** [m[k]] on a Go map: the zero value when the key is absent or the map
    is nil. *)
Definition index (m : option (gmap string string)) (k : string) : string :=
  default "" (m ≫= (.!! k)).

(** [v, ok := m[k]] *)
Definition index_ok (m : option (gmap string string)) (k : string)
  : option string :=
  m ≫= (.!! k).

(** *** Pointers to a request

    A [*GenericContainerRequest] is nil or the address of the request
    variable of the caller; the store is that variable. *)
Inductive pointer : Type := null | addr.

(** A computation over the request variable that returns or panics. *)
Definition M (A : Type) : Type :=
  GenericContainerRequest -> outcome (A * GenericContainerRequest).

Definition ret {A} (a : A) : M A := fun s => Returned (a, s).

Definition bind {A B} (m : M A) (k : A -> M B) : M B :=
  fun s =>
    match m s with
    | Returned (a, s') => k a s'
    | Panicked p => Panicked p
    end.

Definition throw {A} (p : panic) : M A := fun _ => Panicked p.

(** [req.f]: reading a field through the pointer *)
Definition load {A} (req : pointer) (f : GenericContainerRequest -> A)
  : M A :=
  match req with
  | null => throw nilPointerDereference
  | addr => fun s => Returned (f s, s)
  end.

(** [req.f = v]: assigning a field through the pointer *)
Definition store (req : pointer)
    (upd : GenericContainerRequest -> GenericContainerRequest) : M unit :=
  match req with
  | null => throw nilPointerDereference
  | addr => fun s => Returned (tt, upd s)
  end.

(** [type CustomizeRequestOption func(req *GenericContainerRequest) error] *)
Definition CustomizeRequestOption : Type := pointer -> M (option error).

(** [opt.Customize(req)], which the framework defines as [opt(req)]. *)
Definition Customize (opt : CustomizeRequestOption) (req : pointer)
  : M (option error) :=
  opt req.

Global Instance M_ret : MRet M := @ret.
Global Instance M_bind : MBind M := fun A B k m => bind m k.

(** Modelled from the spec: [testcontainers.WithImage] is the framework's
    option, not part of this repository.  The spec says of the image
    selector that it overwrites the image field with a literal string;
    the field is assigned through the request pointer like every other
    field. *)
Definition WithImage (image : string) : CustomizeRequestOption :=
  fun req =>
    store req (set_Image image);;
    mret None.

End Declarations.
End testcontainers.

(** ** Package aerospike *)

Module aerospike.

(** Modelled from the spec: [newAerospikeWaitStrategy] is declared in a file
    of the repository that is not among the sources.  The spec calls its
    result a readiness condition that polls the service until it accepts
    connections; the launcher only stores it in the request. *)
Class WaitStrategy `{testcontainers.Framework} : Type := {
  newAerospikeWaitStrategy : testcontainers.Strategy;
}.

Section Package.
Context `{WaitStrategy}.

Import testcontainers.

Definition aerospikeServicePort : string := "3000/tcp".
Definition communityAerospikeImage : string :=
  "aerospike/aerospike-server:8.0".
Definition enterpriseAerospikeImage : string :=
  "aerospike/aerospike-server-enterprise:8.0".

(** [type Container struct { testcontainers.Container }] *)
Record Container : Type := {
  embeddedContainer : testcontainers.Container;
}.

(** *** Option functions *)

Definition WithImage (image : string) : CustomizeRequestOption :=
  testcontainers.WithImage image.

Definition WithEnterpriseEdition : CustomizeRequestOption :=
  WithImage enterpriseAerospikeImage.

(** [req.Env[k] = v]; assigning into a nil map panics. *)
Definition assign_Env (req : pointer) (k v : string) : M unit :=
  env ← load req (fun r => Env (embedded r));
  match env with
  | None => throw assignmentToNilMap
  | Some m => store req (set_Env (Some (<[k := v]> m)))
  end.

Definition WithNamespace (namespace : string) : CustomizeRequestOption :=
  fun req =>
    env ← load req (fun r => Env (embedded r));
    (if env is None then store req (set_Env (Some ∅)) else mret tt);;
    assign_Env req "NAMESPACE" namespace;;
    mret None.

Definition WithLogLevel (logLevel : string) : CustomizeRequestOption :=
  fun req =>
    env ← load req (fun r => Env (embedded r));
    (if env is None then store req (set_Env (Some ∅)) else mret tt);;
    assign_Env req "AEROSPIKE_LOG_LEVEL" logLevel;;
    mret None.

(** The post-start hook of [WithTTLSupport]: one [Exec] of the [asinfo]
    command, whose error is the hook's result. *)
Definition ttlHook (namespace : string) : ContainerHook :=
  fun c =>
    let cmd :=
      ["asinfo"; "-v";
       "set-config:context=namespace;id=" +:+ namespace +:+ ";nsup-period=10"] in
    Call (Exec c cmd) (fun '(_, _, err) => Ret err).

Definition WithTTLSupport (namespace : string) : CustomizeRequestOption :=
  let namespace := if decide (namespace = "") then "test" else namespace in
  fun req =>
    hooks ← load req (fun r => LifecycleHooks (embedded r));
    store req
      (set_LifecycleHooks
         (hooks ++ [ {| PostStarts := [ttlHook namespace];
                        otherHooks := noOtherHooks |} ]));;
    mret None.

(** *** The launcher *)

(** The loop over [opts] in [RunContainer]: [Some err] when the loop body
    returns from the function with [err], [None] when the loop ends.  The
    values of the interface [ContainerCustomizer], whose one method is
    [Customize], are the option functions. *)
Fixpoint applyOptions (opts : list CustomizeRequestOption)
  : M (option error) :=
  match opts with
  | [] => mret None
  | opt :: opts =>
      err ← Customize opt addr;
      match err with
      | Some err => mret (Some (Errorf_w "failed to apply option: " err))
      | None => applyOptions opts
      end
  end.

(** What [RunContainer] does with the answer of [GenericContainer]. *)
Definition started (answer : testcontainers.Container * option error)
  : program FrameworkCall (option Container * option error) :=
  let '(container, err) := answer in
  match err with
  | Some err => Ret (None, Some (Errorf_w "failed to start Aerospike: " err))
  | None => Ret (Some {| embeddedContainer := container |}, None)
  end.

Definition RunContainer (opts : list CustomizeRequestOption)
  : program FrameworkCall (option Container * option error) :=
  let containerRequest :=
    {| Image := communityAerospikeImage;
       ExposedPorts := ["3000/tcp"];
       Env := None;
       WaitingFor := Some newAerospikeWaitStrategy;
       LifecycleHooks := [];
       otherRequestFields := zeroFields |} in
  let genericContainerRequest :=
    {| embedded := containerRequest;
       Started := true;
       otherGenericFields := zeroFields |} in
  match applyOptions opts genericContainerRequest with
  | Panicked p => Panic p
  | Returned (Some err, _) => Ret (None, Some err)
  | Returned (None, genericContainerRequest) =>
      Call (GenericContainer genericContainerRequest) started
  end.

(** *** The handle *)

Definition ServicePort (c : Container)
  : program ContainerCall (Z * option error) :=
  Call (MappedPort (embeddedContainer c) aerospikeServicePort)
    (fun '(port, err) =>
       match err with
       | Some err => Ret (0%Z, Some err)
       | None => Ret (Port_Int port, None)
       end).

End Package.
End aerospike.

(** ** Vocabulary of the properties *)

Section Vocabulary.
Context `{aerospike.WaitStrategy}.

Import testcontainers aerospike.

(** [testcontainers.GenericContainerRequest{}], the request the unit tests
    start from. *)
Definition zeroRequest : GenericContainerRequest :=
  {| embedded :=
       {| Image := "";
          ExposedPorts := [];
          Env := None;
          WaitingFor := None;
          LifecycleHooks := [];
          otherRequestFields := zeroFields |};
     Started := false;
     otherGenericFields := zeroFields |}.

(** The request [RunContainer] starts from, with its literals written out. *)
Definition baseRequest : GenericContainerRequest :=
  {| embedded :=
       {| Image := "aerospike/aerospike-server:8.0";
          ExposedPorts := ["3000/tcp"];
          Env := None;
          WaitingFor := Some newAerospikeWaitStrategy;
          LifecycleHooks := [];
          otherRequestFields := zeroFields |};
     Started := true;
     otherGenericFields := zeroFields |}.

(** The options of a list applied to a request one after the other, first to
    last, each returning no error. *)
Inductive appliedInOrder
  : list CustomizeRequestOption ->
    GenericContainerRequest -> GenericContainerRequest -> Prop :=
  | applied_none r : appliedInOrder [] r r
  | applied_next opt opts r r1 r2 :
      Customize opt addr r = Returned (None, r1) ->
      appliedInOrder opts r1 r2 ->
      appliedInOrder (opt :: opts) r r2.

(** Two requests that agree on every field but the environment. *)
Definition sameButEnv (r r' : GenericContainerRequest) : Prop :=
  Image (embedded r') = Image (embedded r) /\
  ExposedPorts (embedded r') = ExposedPorts (embedded r) /\
  WaitingFor (embedded r') = WaitingFor (embedded r) /\
  LifecycleHooks (embedded r') = LifecycleHooks (embedded r) /\
  otherRequestFields (embedded r') = otherRequestFields (embedded r) /\
  Started r' = Started r /\
  otherGenericFields r' = otherGenericFields r.

(** Two requests that agree on every field but the lifecycle hooks. *)
Definition sameButHooks (r r' : GenericContainerRequest) : Prop :=
  Image (embedded r') = Image (embedded r) /\
  ExposedPorts (embedded r') = ExposedPorts (embedded r) /\
  Env (embedded r') = Env (embedded r) /\
  WaitingFor (embedded r') = WaitingFor (embedded r) /\
  otherRequestFields (embedded r') = otherRequestFields (embedded r) /\
  Started r' = Started r /\
  otherGenericFields r' = otherGenericFields r.

(** Two requests that agree on every field but the image. *)
Definition sameButImage (r r' : GenericContainerRequest) : Prop :=
  ExposedPorts (embedded r') = ExposedPorts (embedded r) /\
  Env (embedded r') = Env (embedded r) /\
  WaitingFor (embedded r') = WaitingFor (embedded r) /\
  LifecycleHooks (embedded r') = LifecycleHooks (embedded r) /\
  otherRequestFields (embedded r') = otherRequestFields (embedded r) /\
  Started r' = Started r /\
  otherGenericFields r' = otherGenericFields r.

(** The environment after [req.Env[k] = v], the map being made when nil. *)
Definition assigned (k v : string) (r : GenericContainerRequest)
  : GenericContainerRequest :=
  set_Env (Some (<[k := v]> (default ∅ (Env (embedded r))))) r.

(** The administrative command of the time-to-live hook for a namespace. *)
Definition nsupCommand (ns : string) : list string :=
  ["asinfo"; "-v";
   "set-config:context=namespace;id=" +:+ ns +:+ ";nsup-period=10"].

End Vocabulary.

(** ** Launches that use the options of the package only *)

(** A call of one of the five option constructors of the package. *)
Inductive optionCall : Type :=
  | callWithImage (image : string)
  | callWithEnterpriseEdition
  | callWithNamespace (namespace : string)
  | callWithLogLevel (logLevel : string)
  | callWithTTLSupport (namespace : string).

(** What a call writes to: the image field, one key of the environment, or
    the list of lifecycle hooks. *)
Inductive target : Type :=
  | imageField
  | envKey (k : string)
  | hookList.

Definition targetOf (o : optionCall) : target :=
  match o with
  | callWithImage _ | callWithEnterpriseEdition => imageField
  | callWithNamespace _ => envKey "NAMESPACE"
  | callWithLogLevel _ => envKey "AEROSPIKE_LOG_LEVEL"
  | callWithTTLSupport _ => hookList
  end.

(** The image a call asks for, if it is an image option. *)
Definition imageOf (o : optionCall) : option string :=
  match o with
  | callWithImage image => Some image
  | callWithEnterpriseEdition =>
      Some "aerospike/aerospike-server-enterprise:8.0"
  | _ => None
  end.

Definition namespaceOf (o : optionCall) : option string :=
  match o with callWithNamespace namespace => Some namespace | _ => None end.

Definition logLevelOf (o : optionCall) : option string :=
  match o with callWithLogLevel logLevel => Some logLevel | _ => None end.

(** The namespace a time-to-live call configures: its argument, or [test]
    for the empty argument. *)
Definition ttlOf (o : optionCall) : option string :=
  match o with
  | callWithTTLSupport namespace =>
      Some (if decide (namespace = "") then "test" else namespace)
  | _ => None
  end.

Section OwnOptions.
Context `{testcontainers.Framework}.

Import testcontainers aerospike.

(** The option a call evaluates to. *)
Definition optionOf (o : optionCall) : CustomizeRequestOption :=
  match o with
  | callWithImage image => aerospike.WithImage image
  | callWithEnterpriseEdition => WithEnterpriseEdition
  | callWithNamespace namespace => WithNamespace namespace
  | callWithLogLevel logLevel => WithLogLevel logLevel
  | callWithTTLSupport namespace => WithTTLSupport namespace
  end.

(** The entry of the lifecycle hooks that holds the time-to-live hook of a
    namespace and nothing else. *)
Definition hookEntry (ns : string) : ContainerLifecycleHooks :=
  {| PostStarts := [ttlHook ns]; otherHooks := noOtherHooks |}.

(** What the environment reads under a key after a list of calls: the value
    of the last namespace call under [NAMESPACE], of the last log-level call
    under [AEROSPIKE_LOG_LEVEL], and what it read before where there is no
    such call and under every other key. *)
Definition envAfter (os : list optionCall) (before : option string)
    (k : string) : option string :=
  if decide (k = "NAMESPACE")
  then from_option Some before (last (omap namespaceOf os))
  else if decide (k = "AEROSPIKE_LOG_LEVEL")
  then from_option Some before (last (omap logLevelOf os))
  else before.

(** The request a list of calls leaves, compared with the request it
    started from: the image of the last image call, the environment of the
    last call for each key, one more entry of the lifecycle hooks for each
    time-to-live call, in call order, and every other field as it was. *)
Definition leftBy (os : list optionCall) (r r' : GenericContainerRequest)
  : Prop :=
  Image (embedded r')
  = default (Image (embedded r)) (last (omap imageOf os)) /\
  (forall k, index_ok (Env (embedded r')) k
             = envAfter os (index_ok (Env (embedded r)) k) k) /\
  LifecycleHooks (embedded r')
  = (LifecycleHooks (embedded r) ++ (hookEntry <$> omap ttlOf os))%list /\
  ExposedPorts (embedded r') = ExposedPorts (embedded r) /\
  WaitingFor (embedded r') = WaitingFor (embedded r) /\
  otherRequestFields (embedded r') = otherRequestFields (embedded r) /\
  Started r' = Started r /\
  otherGenericFields r' = otherGenericFields r.

(** The command of the first call a hook makes, when that call is [Exec]. *)
Definition firstExec {A} (t : program ContainerCall A)
  : option (list string) :=
  match t with
  | Call (Exec _ cmd) _ => Some cmd
  | _ => None
  end.

(** What [RunContainer] may return: a handle and no error, or no handle and
    an error that wraps another one. *)
Definition handleOrWrappedError
    (result : option aerospike.Container * option error) : Prop :=
  match result with
  | (Some _, None) => True
  | (None, Some err) => is_Some (Unwrap err)
  | _ => False
  end.

End OwnOptions.

(** ** A concrete framework, to evaluate the definitions on *)

(** [nat.Port.Int] of the sample framework: the text before the first [/]
    read as a decimal number of at most 16 bits, and 0 when that text is
    empty, holds a character that is no digit, or does not fit. *)
Fixpoint beforeSlash (s : string) : string :=
  match s with
  | String c s' =>
      if (Ascii.nat_of_ascii c =? 47)%nat   (* the character / *)
      then ""
      else String c (beforeSlash s')
  | EmptyString => ""
  end.

Fixpoint parseDigits (acc : Z) (s : string) : option Z :=
  match s with
  | String c s' =>
      let n := Ascii.nat_of_ascii c in
      if (48 <=? n)%nat && (n <=? 57)%nat
      then parseDigits (10 * acc + Z.of_nat (n - 48)) s'
      else None
  | EmptyString => Some acc
  end.

Definition portInt (port : string) : Z :=
  match parseDigits 0 (beforeSlash port) with
  | Some n => if (n <=? 65535)%Z then n else 0%Z
  | None => 0%Z
  end.

(** Containers are named, strategies and readers are texts, and the fields
    this package never names carry nothing. *)
Definition sampleFramework : testcontainers.Framework :=
  {| testcontainers.Container := string;
     testcontainers.Strategy := string;
     testcontainers.Reader := string;
     testcontainers.Port_Int := portInt;
     testcontainers.OtherHooks := unit;
     testcontainers.noOtherHooks := tt;
     testcontainers.OtherFields := unit;
     testcontainers.zeroFields := tt |}.

Definition sampleWaitStrategy : @aerospike.WaitStrategy sampleFramework :=
  {| aerospike.newAerospikeWaitStrategy :=
       "aerospike accepts connections"
       : @testcontainers.Strategy sampleFramework |}.

(** An option of a caller that rejects the request. *)
Definition rejecting (msg : string)
  : @testcontainers.CustomizeRequestOption sampleFramework :=
  fun _ => testcontainers.ret (Some (errorString msg)).

(** An option of a caller that sets an environment entry without making the
    map first. *)
Definition assigningUnmade (k v : string)
  : @testcontainers.CustomizeRequestOption sampleFramework :=
  fun req =>
    testcontainers.bind (aerospike.assign_Env req k v)
      (fun _ => testcontainers.ret None).

(** A framework whose container starts, maps port 3000 to 32768 and runs
    commands successfully. *)
Definition healthy (X : Type)
    (e : @testcontainers.FrameworkCall sampleFramework X) : X :=
  match e with
  | testcontainers.GenericContainer _ => ("aerospike-1", None)
  end.

Definition healthyContainer (X : Type)
    (e : @testcontainers.ContainerCall sampleFramework X) : X :=
  match e with
  | testcontainers.Exec _ _ => (0%Z, "ok", None)
  | testcontainers.MappedPort _ _ => ("32768/tcp", None)
  end.

(** A framework that cannot start the container, and a container whose port
    mapping is not available. *)
Definition failing (X : Type)
    (e : @testcontainers.FrameworkCall sampleFramework X) : X :=
  match e with
  | testcontainers.GenericContainer _ =>
      ("", Some (errorString "docker: daemon not reachable"))
  end.

Definition stoppedContainer (X : Type)
    (e : @testcontainers.ContainerCall sampleFramework X) : X :=
  match e with
  | testcontainers.Exec _ _ => (1%Z, "", Some (errorString "not running"))
  | testcontainers.MappedPort _ _ => ("", Some (errorString "port not found"))
  end.

(** ** What each option does to the request it is given *)

Section OptionFacts.
Context `{testcontainers.Framework}.

Import testcontainers aerospike.

#[local] Ltac run_option :=
  unfold Customize, WithNamespace, WithLogLevel, WithTTLSupport,
    WithEnterpriseEdition, aerospike.WithImage, testcontainers.WithImage,
    assign_Env, mbind, M_bind, bind, mret, M_ret, ret, load, store, throw;
  simpl.

Lemma WithNamespace_addr (namespace : string) (r : GenericContainerRequest) :
  Customize (WithNamespace namespace) addr r
  = Returned (None, assigned "NAMESPACE" namespace r).
Proof.
  run_option. unfold assigned.
  destruct (Env (embedded r)) as [m|] eqn:E; simpl; [rewrite E|]; reflexivity.
Qed.

Lemma WithLogLevel_addr (logLevel : string) (r : GenericContainerRequest) :
  Customize (WithLogLevel logLevel) addr r
  = Returned (None, assigned "AEROSPIKE_LOG_LEVEL" logLevel r).
Proof.
  run_option. unfold assigned.
  destruct (Env (embedded r)) as [m|] eqn:E; simpl; [rewrite E|]; reflexivity.
Qed.

Lemma WithImage_addr (image : string) (r : GenericContainerRequest) :
  Customize (aerospike.WithImage image) addr r
  = Returned (None, set_Image image r).
Proof. reflexivity. Qed.

Lemma WithTTLSupport_addr (namespace : string) (r : GenericContainerRequest) :
  Customize (WithTTLSupport namespace) addr r
  = Returned
      (None,
       set_LifecycleHooks
         (LifecycleHooks (embedded r) ++
          [ {| PostStarts :=
                 [ttlHook (if decide (namespace = "") then "test" else namespace)];
               otherHooks := noOtherHooks |} ]) r).
Proof. reflexivity. Qed.

Lemma assigned_lookup (k v k' : string) (r : GenericContainerRequest) :
  index_ok (Env (embedded (assigned k v r))) k'
  = if decide (k' = k) then Some v else index_ok (Env (embedded r)) k'.
Proof.
  unfold assigned, index_ok. simpl.
  destruct (Env (embedded r)) as [m|]; simpl;
    case_decide; simplify_map_eq; reflexivity.
Qed.

Lemma assigned_frame (k v : string) (r : GenericContainerRequest) :
  sameButEnv r (assigned k v r).
Proof. unfold sameButEnv, assigned. simpl. tauto. Qed.

Lemma assigned_twice (k v1 v2 : string) (r : GenericContainerRequest) :
  assigned k v2 (assigned k v1 r) = assigned k v2 r.
Proof.
  unfold assigned, set_Env. simpl. do 3 f_equal.
  apply insert_insert_eq.
Qed.

(** One round of the loop of [RunContainer]. *)
Lemma applyOptions_next opt opts (r r1 : GenericContainerRequest) :
  Customize opt addr r = Returned (None, r1) ->
  applyOptions (opt :: opts) r = applyOptions opts r1.
Proof.
  intros Hopt. simpl. unfold mbind, M_bind, bind. rewrite Hopt. reflexivity.
Qed.

Lemma applyOptions_stop opt opts (r r1 : GenericContainerRequest) e :
  Customize opt addr r = Returned (Some e, r1) ->
  applyOptions (opt :: opts) r
  = Returned (Some (Errorf_w "failed to apply option: " e), r1).
Proof.
  intros Hopt. simpl. unfold mbind, M_bind, bind. rewrite Hopt. reflexivity.
Qed.

Lemma applyOptions_in_order opts (r r' : GenericContainerRequest) :
  appliedInOrder opts r r' -> applyOptions opts r = Returned (None, r').
Proof.
  induction 1 as [r|opt opts r r1 r2 Hopt _ IH]; [reflexivity|].
  rewrite (applyOptions_next _ _ _ _ Hopt). exact IH.
Qed.

Lemma applyOptions_app_stop pre opt post (r r1 r2 : GenericContainerRequest) e :
  appliedInOrder pre r r1 ->
  Customize opt addr r1 = Returned (Some e, r2) ->
  applyOptions (pre ++ opt :: post) r
  = Returned (Some (Errorf_w "failed to apply option: " e), r2).
Proof.
  intros Hpre Hopt.
  induction Hpre as [r|o os r r1 r3 Ho _ IH]; simpl app.
  - apply applyOptions_stop, Hopt.
  - rewrite (applyOptions_next _ _ _ _ Ho). apply IH, Hopt.
Qed.

(** *** Error conditions *)

(** C1, as amended: a nil target makes the namespace, log-level and
    time-to-live options panic on the first field access (no error value is
    returned), and on every non-nil target each of the five options returns
    a nil error, whatever its argument and whatever the request. *)
Theorem options_error_conditions
    (namespace logLevel image ttl : string) (r : GenericContainerRequest) :
  (Customize (WithNamespace namespace) null r = Panicked nilPointerDereference /\
   Customize (WithLogLevel logLevel) null r = Panicked nilPointerDereference /\
   Customize (WithTTLSupport ttl) null r = Panicked nilPointerDereference) /\
  (exists r', Customize (WithNamespace namespace) addr r = Returned (None, r')) /\
  (exists r', Customize (WithLogLevel logLevel) addr r = Returned (None, r')) /\
  (exists r', Customize (aerospike.WithImage image) addr r = Returned (None, r')) /\
  (exists r', Customize WithEnterpriseEdition addr r = Returned (None, r')) /\
  (exists r', Customize (WithTTLSupport ttl) addr r = Returned (None, r')).
Proof.
  split; [repeat split|].
  repeat split; eexists.
  - apply WithNamespace_addr.
  - apply WithLogLevel_addr.
  - apply WithImage_addr.
  - apply WithImage_addr.
  - apply WithTTLSupport_addr.
Qed.

(** *** The namespace option *)

(** C2: whatever the string and whatever the request, the namespace option
    returns no error and the entry [NAMESPACE] of the environment then reads
    exactly that string, both as [req.Env["NAMESPACE"]] and in the
    comma-ok form. *)
Theorem WithNamespace_round_trip
    (s : string) (r : GenericContainerRequest) :
  exists r',
    Customize (WithNamespace s) addr r = Returned (None, r') /\
    index (Env (embedded r')) "NAMESPACE" = s /\
    index_ok (Env (embedded r')) "NAMESPACE" = Some s.
Proof.
  eexists. split; [apply WithNamespace_addr|].
  assert (Hk : index_ok (Env (embedded (assigned "NAMESPACE" s r))) "NAMESPACE"
               = Some s).
  { rewrite assigned_lookup. case_decide; [reflexivity | congruence]. }
  split; [|exact Hk].
  unfold index. unfold index_ok in Hk. rewrite Hk. reflexivity.
Qed.

(** *** The image options *)

(** C9: the image option returns no error and leaves exactly its argument in
    the image field, whatever the string; the other fields stay as they
    were. *)
Theorem WithImage_sets_image (v : string) (r : GenericContainerRequest) :
  exists r',
    Customize (aerospike.WithImage v) addr r = Returned (None, r') /\
    Image (embedded r') = v /\
    sameButImage r r'.
Proof.
  eexists. split; [apply WithImage_addr|].
  split; [reflexivity|]. unfold sameButImage. simpl. tauto.
Qed.

(** C8: on every target, nil or not, and every request, the enterprise-edition
    option has the outcome (resulting request and error, or panic) of the
    image option applied to the literal
    [aerospike/aerospike-server-enterprise:8.0]. *)
Theorem WithEnterpriseEdition_is_WithImage
    (req : pointer) (r : GenericContainerRequest) :
  Customize WithEnterpriseEdition req r
  = Customize
      (aerospike.WithImage "aerospike/aerospike-server-enterprise:8.0") req r.
Proof. reflexivity. Qed.

(** *** Options applied one after the other *)

(** C3, as amended: an option that sets a value, applied twice in a row,
    leaves the value of the second application.  For the namespace and the
    log level the environment reads the value of the application under the
    option's key after each of the two, and reads as before under every
    other key; of two image options (the enterprise-edition option being
    one) the later one decides the image field.  The time-to-live option
    does not override: applied twice it leaves, after the entries that were
    there, the entry of the first application and then the entry of the
    second.  No option writes a second environment key: the image options
    and the time-to-live option leave the environment as it was. *)
Theorem same_option_last_write_wins
    (v1 v2 : string) (r : GenericContainerRequest) :
  (exists r1 r2,
     Customize (WithNamespace v1) addr r = Returned (None, r1) /\
     Customize (WithNamespace v2) addr r1 = Returned (None, r2) /\
     (forall k, index_ok (Env (embedded r1)) k
                = if decide (k = "NAMESPACE") then Some v1
                  else index_ok (Env (embedded r)) k) /\
     (forall k, index_ok (Env (embedded r2)) k
                = if decide (k = "NAMESPACE") then Some v2
                  else index_ok (Env (embedded r)) k)) /\
  (exists r1 r2,
     Customize (WithLogLevel v1) addr r = Returned (None, r1) /\
     Customize (WithLogLevel v2) addr r1 = Returned (None, r2) /\
     (forall k, index_ok (Env (embedded r1)) k
                = if decide (k = "AEROSPIKE_LOG_LEVEL") then Some v1
                  else index_ok (Env (embedded r)) k) /\
     (forall k, index_ok (Env (embedded r2)) k
                = if decide (k = "AEROSPIKE_LOG_LEVEL") then Some v2
                  else index_ok (Env (embedded r)) k)) /\
  (exists r1 r2,
     Customize (aerospike.WithImage v1) addr r = Returned (None, r1) /\
     Customize (aerospike.WithImage v2) addr r1 = Returned (None, r2) /\
     Image (embedded r2) = v2 /\
     Env (embedded r1) = Env (embedded r) /\
     Env (embedded r2) = Env (embedded r)) /\
  (exists r1 r2,
     Customize (aerospike.WithImage v1) addr r = Returned (None, r1) /\
     Customize WithEnterpriseEdition addr r1 = Returned (None, r2) /\
     Image (embedded r2) = "aerospike/aerospike-server-enterprise:8.0" /\
     Env (embedded r2) = Env (embedded r)) /\
  (exists r1 r2,
     Customize WithEnterpriseEdition addr r = Returned (None, r1) /\
     Customize (aerospike.WithImage v2) addr r1 = Returned (None, r2) /\
     Image (embedded r2) = v2 /\
     Env (embedded r2) = Env (embedded r)) /\
  (exists r1 r2,
     Customize (WithTTLSupport v1) addr r = Returned (None, r1) /\
     Customize (WithTTLSupport v2) addr r1 = Returned (None, r2) /\
     LifecycleHooks (embedded r2)
     = (LifecycleHooks (embedded r) ++
        [ hookEntry (if decide (v1 = "") then "test" else v1);
          hookEntry (if decide (v2 = "") then "test" else v2) ])%list /\
     Env (embedded r1) = Env (embedded r) /\
     Env (embedded r2) = Env (embedded r)).
Proof.
  split; [|split; [|split; [|split; [|split]]]].
  - do 2 eexists. split; [apply WithNamespace_addr|].
    split; [apply WithNamespace_addr|].
    split; intros k; [|rewrite assigned_twice]; apply assigned_lookup.
  - do 2 eexists. split; [apply WithLogLevel_addr|].
    split; [apply WithLogLevel_addr|].
    split; intros k; [|rewrite assigned_twice]; apply assigned_lookup.
  - do 2 eexists. repeat split.
  - do 2 eexists. repeat split.
  - do 2 eexists. repeat split.
  - do 2 eexists. split; [apply WithTTLSupport_addr|].
    split; [apply WithTTLSupport_addr|].
    split; [|split; reflexivity].
    simpl. rewrite <- app_assoc. reflexivity.
Qed.

(** The time-to-live option does not override: applied twice, it leaves two
    entries, the earlier one first, each with the hook of its own
    namespace. *)
Lemma WithTTLSupport_twice (ns1 ns2 : string) (r : GenericContainerRequest) :
  exists r1 r2,
    Customize (WithTTLSupport ns1) addr r = Returned (None, r1) /\
    Customize (WithTTLSupport ns2) addr r1 = Returned (None, r2) /\
    LifecycleHooks (embedded r2)
    = (LifecycleHooks (embedded r) ++
       [ {| PostStarts :=
              [ttlHook (if decide (ns1 = "") then "test" else ns1)];
            otherHooks := noOtherHooks |};
         {| PostStarts :=
              [ttlHook (if decide (ns2 = "") then "test" else ns2)];
            otherHooks := noOtherHooks |} ])%list.
Proof.
  do 2 eexists. split; [apply WithTTLSupport_addr|].
  split; [apply WithTTLSupport_addr|].
  simpl. rewrite <- app_assoc. reflexivity.
Qed.

(** *** What an option leaves alone *)

(** C10: the namespace option and the log-level option change the request
    only in the environment, and there only under their own key
    ([NAMESPACE], [AEROSPIKE_LOG_LEVEL]): every other key reads as before,
    and image, exposed ports, wait strategy, lifecycle hooks, started flag
    and the remaining fields are unchanged.  The time-to-live option adds one
    entry at the end of the lifecycle hooks, keeps the hooks that were there
    and changes no other field. *)
Theorem options_frame
    (namespace logLevel ttl : string) (r : GenericContainerRequest) :
  (exists r',
     Customize (WithNamespace namespace) addr r = Returned (None, r') /\
     sameButEnv r r' /\
     forall k, index_ok (Env (embedded r')) k
               = if decide (k = "NAMESPACE") then Some namespace
                 else index_ok (Env (embedded r)) k) /\
  (exists r',
     Customize (WithLogLevel logLevel) addr r = Returned (None, r') /\
     sameButEnv r r' /\
     forall k, index_ok (Env (embedded r')) k
               = if decide (k = "AEROSPIKE_LOG_LEVEL") then Some logLevel
                 else index_ok (Env (embedded r)) k) /\
  (exists r' entry,
     Customize (WithTTLSupport ttl) addr r = Returned (None, r') /\
     sameButHooks r r' /\
     LifecycleHooks (embedded r')
     = (LifecycleHooks (embedded r) ++ [entry])%list).
Proof.
  split; [|split].
  - eexists. split; [apply WithNamespace_addr|].
    split; [apply assigned_frame | intros k; apply assigned_lookup].
  - eexists. split; [apply WithLogLevel_addr|].
    split; [apply assigned_frame | intros k; apply assigned_lookup].
  - do 2 eexists. split; [apply WithTTLSupport_addr|].
    split; [unfold sameButHooks; simpl; tauto | reflexivity].
Qed.

(** *** The time-to-live option *)

(** C6: the time-to-live option returns no error and adds one entry to the
    lifecycle hooks; the entry holds one post-start hook and nothing else,
    and the hook, run on a container, makes one call, [Exec] of
    [asinfo -v set-config:context=namespace;id=<ns>;nsup-period=10] on that
    container, and returns the error of that call.  [<ns>] is the argument,
    or [test] when the argument is the empty string. *)
Theorem WithTTLSupport_registers_hook
    (namespace : string) (r : GenericContainerRequest) :
  exists r' hook,
    Customize (WithTTLSupport namespace) addr r = Returned (None, r') /\
    LifecycleHooks (embedded r')
    = (LifecycleHooks (embedded r) ++
       [ {| PostStarts := [hook]; otherHooks := noOtherHooks |} ])%list /\
    forall c : testcontainers.Container,
    exists k,
      hook c
      = Call (Exec c (nsupCommand
                        (if decide (namespace = "") then "test" else namespace)))
          k /\
      forall code out err, k (code, out, err) = Ret err.
Proof.
  do 2 eexists. split; [apply WithTTLSupport_addr|].
  split; [reflexivity|].
  intros c. eexists. split; [reflexivity|]. reflexivity.
Qed.

(** The command of the default namespace, written out. *)
Lemma nsupCommand_default :
  nsupCommand (if decide ("" = "") then "test" else "")
  = ["asinfo"; "-v"; "set-config:context=namespace;id=test;nsup-period=10"].
Proof. reflexivity. Qed.

End OptionFacts.

(** ** The launcher and the handle *)

Section LauncherFacts.
Context `{aerospike.WaitStrategy}.

Import testcontainers aerospike.

(** C4: with no option, [RunContainer] makes one call, [GenericContainer],
    with the request whose image is [aerospike/aerospike-server:8.0], whose
    exposed ports are the one entry [3000/tcp], whose wait strategy is the
    one [newAerospikeWaitStrategy] returns and which asks for a started
    container; with options that apply without error, first to last, each
    to the request the one before left, the request passed is the one the
    last option left.  A container the framework returns without error is
    returned wrapped in the handle, with a nil error. *)
Theorem RunContainer_builds_and_delegates
    (opts : list CustomizeRequestOption) (r' : GenericContainerRequest)
    (Hopts : appliedInOrder opts baseRequest r') :
  RunContainer [] = Call (GenericContainer baseRequest) started /\
  Image (embedded baseRequest) = "aerospike/aerospike-server:8.0" /\
  ExposedPorts (embedded baseRequest) = ["3000/tcp"] /\
  WaitingFor (embedded baseRequest) = Some newAerospikeWaitStrategy /\
  Started baseRequest = true /\
  RunContainer opts = Call (GenericContainer r') started /\
  forall c, started (c, None) = Ret (Some {| embeddedContainer := c |}, None).
Proof.
  repeat split.
  unfold RunContainer.
  change (applyOptions opts _) with (applyOptions opts baseRequest).
  rewrite (applyOptions_in_order _ _ _ Hopts). reflexivity.
Qed.

(** C5: when the options before some option apply without error and that
    option returns an error, [RunContainer] returns a nil handle and one
    error, whose message is [failed to apply option: ] followed by the
    message of the option's error and which wraps exactly that error, and it
    makes no call to the framework, whatever options follow.  When all
    options apply and [GenericContainer] answers with an error, the result is
    a nil handle and one error, [failed to start Aerospike: ] followed by the
    framework's message, wrapping exactly the framework's error, and that
    call is the only one made. *)
Theorem RunContainer_failures
    (pre post opts : list CustomizeRequestOption) (opt : CustomizeRequestOption)
    (r1 r2 r' : GenericContainerRequest) (e : error)
    (Hpre : appliedInOrder pre baseRequest r1)
    (Hopt : Customize opt addr r1 = Returned (Some e, r2))
    (Hopts : appliedInOrder opts baseRequest r') :
  (exists err,
     RunContainer (pre ++ opt :: post) = Ret (None, Some err) /\
     Error err = "failed to apply option: " +:+ Error e /\
     Unwrap err = Some e /\
     forall answer, count_calls answer (RunContainer (pre ++ opt :: post)) = 0) /\
  (RunContainer opts = Call (GenericContainer r') started /\
   (forall c e',
      exists err,
        started (c, Some e') = Ret (None, Some err) /\
        Error err = "failed to start Aerospike: " +:+ Error e' /\
        Unwrap err = Some e') /\
   forall answer, count_calls answer (RunContainer opts) = 1).
Proof.
  assert (Hstop : RunContainer (pre ++ opt :: post)
                  = Ret (None, Some (Errorf_w "failed to apply option: " e))).
  { unfold RunContainer.
    change (applyOptions (pre ++ opt :: post) _)
      with (applyOptions (pre ++ opt :: post) baseRequest).
    rewrite (applyOptions_app_stop _ _ _ _ _ _ _ Hpre Hopt). reflexivity. }
  assert (Hgo : RunContainer opts = Call (GenericContainer r') started).
  { unfold RunContainer.
    change (applyOptions opts _) with (applyOptions opts baseRequest).
    rewrite (applyOptions_in_order _ _ _ Hopts). reflexivity. }
  split; [|split; [exact Hgo | split]].
  - eexists. split; [exact Hstop|]. repeat split.
    intros answer. rewrite Hstop. reflexivity.
  - intros c e'. eexists. repeat split.
  - intros answer. rewrite Hgo. simpl.
    destruct (answer _ (GenericContainer r')) as [c [e'|]]; reflexivity.
Qed.

(** C7: [ServicePort] makes one call, [MappedPort] for [3000/tcp] on the
    embedded container; when the framework answers with a port and no error
    the result is the number of that port and a nil error, and when it
    answers with an error the result is 0 and that error.  So the result
    carries an error exactly when the framework's answer does. *)
Theorem ServicePort_resolves (c : aerospike.Container) :
  exists k,
    ServicePort c = Call (MappedPort (embeddedContainer c) "3000/tcp") k /\
    (forall port, k (port, None) = Ret (Port_Int port, None)) /\
    (forall port e, k (port, Some e) = Ret (0%Z, Some e)) /\
    forall answer : (forall X, ContainerCall X -> X),
      run answer (ServicePort c)
      = Returned
          (match answer _ (MappedPort (embeddedContainer c) "3000/tcp") with
           | (port, None) => (Port_Int port, None)
           | (_, Some e) => (0%Z, Some e)
           end) /\
      count_calls answer (ServicePort c) = 1.
Proof.
  eexists. split; [reflexivity|].
  repeat split.
  all: unfold ServicePort, aerospikeServicePort; simpl;
    destruct (answer _ _) as [port [e|]]; reflexivity.
Qed.

End LauncherFacts.

(** ** Launches with the options of the package *)

Section CompositionFacts.
Context `{aerospike.WaitStrategy}.

Import testcontainers aerospike.

Lemma appliedInOrder_app l1 l2 (r r1 r2 : GenericContainerRequest) :
  appliedInOrder l1 r r1 -> appliedInOrder l2 r1 r2 ->
  appliedInOrder (l1 ++ l2) r r2.
Proof.
  induction 1 as [r|opt opts r ra rb Hopt _ IH]; intros H2; [exact H2|].
  simpl. eapply applied_next; [exact Hopt | apply IH, H2].
Qed.

Lemma envAfter_nil before k : envAfter [] before k = before.
Proof. unfold envAfter. repeat case_decide; reflexivity. Qed.

Lemma envAfter_app l1 l2 before k :
  envAfter (l1 ++ l2) before k = envAfter l2 (envAfter l1 before k) k.
Proof.
  unfold envAfter. rewrite !omap_app, !last_app.
  repeat case_decide; try reflexivity.
  - destruct (last (omap namespaceOf l2)); reflexivity.
  - destruct (last (omap logLevelOf l2)); reflexivity.
Qed.

Lemma leftBy_nil (r : GenericContainerRequest) : leftBy [] r r.
Proof.
  unfold leftBy. simpl. rewrite app_nil_r.
  repeat split. intros k. rewrite envAfter_nil. reflexivity.
Qed.

Lemma leftBy_app l1 l2 (r r1 r2 : GenericContainerRequest) :
  leftBy l1 r r1 -> leftBy l2 r1 r2 -> leftBy (l1 ++ l2) r r2.
Proof.
  intros (Hi1 & He1 & Hh1 & Hp1 & Hw1 & Ho1 & Hs1 & Hg1)
         (Hi2 & He2 & Hh2 & Hp2 & Hw2 & Ho2 & Hs2 & Hg2).
  unfold leftBy. repeat split; try congruence.
  - rewrite Hi2, Hi1, omap_app, last_app.
    destruct (last (omap imageOf l2)); reflexivity.
  - intros k. rewrite He2, He1, envAfter_app. reflexivity.
  - rewrite Hh2, Hh1, omap_app, fmap_app, app_assoc. reflexivity.
Qed.

(** One call of an option of the package, on any request. *)
Lemma optionOf_step (o : optionCall) (r : GenericContainerRequest) :
  exists r', Customize (optionOf o) addr r = Returned (None, r') /\
             leftBy [o] r r'.
Proof.
  destruct o as [image| |namespace|logLevel|namespace]; simpl optionOf.
  - eexists. split; [apply WithImage_addr|].
    unfold leftBy. simpl. rewrite app_nil_r. repeat split.
    intros k. unfold envAfter. simpl. repeat case_decide; reflexivity.
  - eexists. split; [apply WithImage_addr|].
    unfold leftBy. simpl. rewrite app_nil_r. repeat split.
    intros k. unfold envAfter. simpl. repeat case_decide; reflexivity.
  - eexists. split; [apply WithNamespace_addr|].
    destruct (assigned_frame "NAMESPACE" namespace r)
      as (Hi & Hp & Hw & Hh & Ho & Hs & Hg).
    unfold leftBy. simpl omap. simpl fmap. rewrite app_nil_r.
    repeat split; try assumption.
    intros k. rewrite assigned_lookup. unfold envAfter. simpl.
    repeat case_decide; try reflexivity; congruence.
  - eexists. split; [apply WithLogLevel_addr|].
    destruct (assigned_frame "AEROSPIKE_LOG_LEVEL" logLevel r)
      as (Hi & Hp & Hw & Hh & Ho & Hs & Hg).
    unfold leftBy. simpl omap. simpl fmap. rewrite app_nil_r.
    repeat split; try assumption.
    intros k. rewrite assigned_lookup. unfold envAfter. simpl.
    repeat case_decide; try reflexivity; congruence.
  - eexists. split; [apply WithTTLSupport_addr|].
    unfold leftBy. simpl. repeat split.
    intros k. unfold envAfter. simpl. repeat case_decide; reflexivity.
Qed.

(** A list of calls, on any request: every option applies, in order. *)
Lemma own_options_apply (os : list optionCall) (r : GenericContainerRequest) :
  exists r', appliedInOrder (optionOf <$> os) r r' /\ leftBy os r r'.
Proof.
  revert r. induction os as [|o os IH]; intros r.
  - exists r. split; [apply applied_none | apply leftBy_nil].
  - destruct (optionOf_step o r) as (r1 & Hstep & Hleft1).
    destruct (IH r1) as (r2 & Hrest & Hleft2).
    exists r2. split.
    + simpl. eapply applied_next; [exact Hstep | exact Hrest].
    + change (o :: os) with (([o] ++ os)%list).
      eapply leftBy_app; [exact Hleft1 | exact Hleft2].
Qed.

Lemma RunContainer_in_order opts (r' : GenericContainerRequest) :
  appliedInOrder opts baseRequest r' ->
  RunContainer opts = Call (GenericContainer r') started.
Proof.
  intros Hopts. unfold RunContainer.
  change (applyOptions opts _) with (applyOptions opts baseRequest).
  rewrite (applyOptions_in_order _ _ _ Hopts). reflexivity.
Qed.

Lemma RunContainer_own_options (os : list optionCall) :
  exists r', RunContainer (optionOf <$> os)
             = Call (GenericContainer r') started /\
             leftBy os baseRequest r'.
Proof.
  destruct (own_options_apply os baseRequest) as (r' & Hopts & Hleft).
  exists r'. split; [apply RunContainer_in_order, Hopts | exact Hleft].
Qed.

Lemma assigned_commute (k1 k2 v1 v2 : string) (r : GenericContainerRequest) :
  k1 <> k2 ->
  assigned k1 v1 (assigned k2 v2 r) = assigned k2 v2 (assigned k1 v1 r).
Proof.
  intros Hne. unfold assigned, set_Env. simpl. do 3 f_equal.
  apply insert_insert_ne, Hne.
Qed.

#[local] Ltac one_step :=
  eapply applied_next;
  [first [apply WithImage_addr | apply WithNamespace_addr
         | apply WithLogLevel_addr | apply WithTTLSupport_addr]|].

(** Two calls with different targets leave the same request in either
    order. *)
Lemma swap_pair (o1 o2 : optionCall) (r : GenericContainerRequest) :
  targetOf o1 <> targetOf o2 ->
  exists r', appliedInOrder [optionOf o1; optionOf o2] r r' /\
             appliedInOrder [optionOf o2; optionOf o1] r r'.
Proof.
  intros Hdiff.
  destruct o1, o2; simpl in Hdiff; try congruence; simpl optionOf;
    (eexists; split; [do 2 one_step; apply applied_none|]);
    do 2 one_step;
    first [ apply applied_none
          | rewrite (assigned_commute "NAMESPACE" "AEROSPIKE_LOG_LEVEL")
              by discriminate; apply applied_none
          | rewrite (assigned_commute "AEROSPIKE_LOG_LEVEL" "NAMESPACE")
              by discriminate; apply applied_none ].
Qed.

(** Of two calls with the same target other than the hooks, the later one
    alone leaves the same request. *)
Lemma override_pair (o1 o2 : optionCall) (r : GenericContainerRequest) :
  targetOf o1 = targetOf o2 -> targetOf o1 <> hookList ->
  exists r', appliedInOrder [optionOf o1; optionOf o2] r r' /\
             appliedInOrder [optionOf o2] r r'.
Proof.
  intros Hsame Hset.
  destruct o1, o2; simpl in Hsame, Hset; try congruence; simpl optionOf;
    (eexists; split; [do 2 one_step; apply applied_none|]);
    one_step;
    first [ apply applied_none | rewrite assigned_twice; apply applied_none ].
Qed.

Lemma applyOptions_app_panic pre opt post
    (r r1 : GenericContainerRequest) (p : panic) :
  appliedInOrder pre r r1 ->
  Customize opt addr r1 = Panicked p ->
  applyOptions (pre ++ opt :: post) r = Panicked p.
Proof.
  intros Hpre Hopt.
  induction Hpre as [r|o os r r1 r3 Ho _ IH]; simpl app.
  - simpl. unfold mbind, M_bind, bind. rewrite Hopt. reflexivity.
  - rewrite (applyOptions_next _ _ _ _ Ho). apply IH, Hopt.
Qed.

Lemma applyOptions_error_wrapped opts (r r' : GenericContainerRequest) err :
  applyOptions opts r = Returned (Some err, r') -> is_Some (Unwrap err).
Proof.
  revert r. induction opts as [|opt opts IH]; intros r; simpl.
  - intros Hret. discriminate Hret.
  - unfold mbind, M_bind, bind.
    destruct (Customize opt addr r) as [[[e|] r1]|p]; intros Hret.
    + injection Hret as <- _. eexists. reflexivity.
    + eapply IH, Hret.
    + discriminate Hret.
Qed.

Lemma append_length (s t : string) :
  String.length (s +:+ t) = String.length s + String.length t.
Proof. induction s as [|a s IH]; simpl; [reflexivity | rewrite IH; lia]. Qed.

Lemma append_inj_r (t s1 s2 : string) : s1 +:+ t = s2 +:+ t -> s1 = s2.
Proof.
  revert s2. induction s1 as [|a s1 IH]; intros [|b s2] Heq; simpl in Heq.
  - reflexivity.
  - apply (f_equal String.length) in Heq.
    rewrite ?append_length in Heq. simpl in Heq.
    rewrite ?append_length in Heq. lia.
  - apply (f_equal String.length) in Heq.
    rewrite ?append_length in Heq. simpl in Heq.
    rewrite ?append_length in Heq. lia.
  - injection Heq as -> Heq. f_equal. apply IH, Heq.
Qed.

(** *** Properties of launches *)

(** X1: a launch whose options are all options of this package, whatever
    their number, order and arguments, never stops at an option: it makes
    exactly one call to the framework, [GenericContainer]. *)
Theorem RunContainer_own_options_reach_framework (os : list optionCall) :
  exists r',
    RunContainer (optionOf <$> os) = Call (GenericContainer r') started /\
    forall answer, count_calls answer (RunContainer (optionOf <$> os)) = 1.
Proof.
  destruct (RunContainer_own_options os) as (r' & Hrun & _).
  exists r'. split; [exact Hrun|].
  intros answer. rewrite Hrun. simpl.
  destruct (answer _ (GenericContainer r')) as [c [e|]]; reflexivity.
Qed.

(** X2: no option of this package touches the launch settings: whatever
    options are given, the request that reaches the framework exposes the
    one port [3000/tcp], waits with the strategy of
    [newAerospikeWaitStrategy], asks for a started container and has the
    zero value in every field the package does not name. *)
Theorem own_options_keep_launch_settings (os : list optionCall) :
  exists r',
    RunContainer (optionOf <$> os) = Call (GenericContainer r') started /\
    ExposedPorts (embedded r') = ["3000/tcp"] /\
    WaitingFor (embedded r') = Some newAerospikeWaitStrategy /\
    Started r' = true /\
    otherRequestFields (embedded r') = zeroFields /\
    otherGenericFields r' = zeroFields.
Proof.
  destruct (RunContainer_own_options os)
    as (r' & Hrun & _ & _ & _ & Hp & Hw & Ho & Hs & Hg).
  exists r'. repeat split; assumption.
Qed.

(** X3: the image of the request that reaches the framework is the image of
    the last image option of the list, the enterprise-edition option
    counting as the image option of the enterprise image, and the community
    image when the list has no image option. *)
Theorem own_options_last_image (os : list optionCall) :
  exists r',
    RunContainer (optionOf <$> os) = Call (GenericContainer r') started /\
    Image (embedded r')
    = default "aerospike/aerospike-server:8.0" (last (omap imageOf os)).
Proof.
  destruct (RunContainer_own_options os) as (r' & Hrun & Hi & _).
  exists r'. split; [exact Hrun | exact Hi].
Qed.

(** X4: the environment of the request that reaches the framework has at
    most the two keys [NAMESPACE] and [AEROSPIKE_LOG_LEVEL]: [NAMESPACE]
    holds the value of the last namespace option and is absent when there is
    none, [AEROSPIKE_LOG_LEVEL] likewise for the log-level options, and
    every other key is absent. *)
Theorem own_options_environment (os : list optionCall) :
  exists r',
    RunContainer (optionOf <$> os) = Call (GenericContainer r') started /\
    forall k,
      index_ok (Env (embedded r')) k
      = if decide (k = "NAMESPACE") then last (omap namespaceOf os)
        else if decide (k = "AEROSPIKE_LOG_LEVEL")
        then last (omap logLevelOf os)
        else None.
Proof.
  destruct (RunContainer_own_options os) as (r' & Hrun & _ & He & _).
  exists r'. split; [exact Hrun|].
  intros k. rewrite He. unfold envAfter. simpl.
  repeat case_decide; try reflexivity.
  - destruct (last (omap namespaceOf os)); reflexivity.
  - destruct (last (omap logLevelOf os)); reflexivity.
Qed.

(** X5: the lifecycle hooks of the request that reaches the framework are
    one entry for each time-to-live option of the list, in the order of the
    list, each holding the one post-start hook of its namespace ([test] for
    the empty argument); repeated time-to-live options are all kept. *)
Theorem own_options_hooks_in_call_order (os : list optionCall) :
  exists r',
    RunContainer (optionOf <$> os) = Call (GenericContainer r') started /\
    LifecycleHooks (embedded r') = hookEntry <$> omap ttlOf os.
Proof.
  destruct (RunContainer_own_options os) as (r' & Hrun & _ & _ & Hh & _).
  exists r'. split; [exact Hrun | exact Hh].
Qed.

(** X6: two neighbouring options that write to different targets (the image,
    an environment key, the hooks) can be exchanged anywhere in the option
    list without changing the launch. *)
Theorem RunContainer_exchange (pre post : list optionCall) (o1 o2 : optionCall)
    (Hdiff : targetOf o1 <> targetOf o2) :
  RunContainer (optionOf <$> (pre ++ o1 :: o2 :: post)%list)
  = RunContainer (optionOf <$> (pre ++ o2 :: o1 :: post)%list).
Proof.
  destruct (own_options_apply pre baseRequest) as (r1 & Hpre & _).
  destruct (swap_pair o1 o2 r1 Hdiff) as (r2 & H12 & H21).
  destruct (own_options_apply post r2) as (r3 & Hpost & _).
  rewrite !fmap_app, !fmap_cons.
  rewrite (RunContainer_in_order _ r3).
  - rewrite (RunContainer_in_order _ r3); [reflexivity|].
    eapply appliedInOrder_app; [exact Hpre|].
    apply (appliedInOrder_app [optionOf o2; optionOf o1] _ _ _ _ H21 Hpost).
  - eapply appliedInOrder_app; [exact Hpre|].
    apply (appliedInOrder_app [optionOf o1; optionOf o2] _ _ _ _ H12 Hpost).
Qed.

(** X7: an image, namespace or log-level option that is directly followed by
    an option with the same target leaves no trace: the launch is the launch
    without it. *)
Theorem RunContainer_overridden (pre post : list optionCall) (o1 o2 : optionCall)
    (Hsame : targetOf o1 = targetOf o2) (Hset : targetOf o1 <> hookList) :
  RunContainer (optionOf <$> (pre ++ o1 :: o2 :: post)%list)
  = RunContainer (optionOf <$> (pre ++ o2 :: post)%list).
Proof.
  destruct (own_options_apply pre baseRequest) as (r1 & Hpre & _).
  destruct (override_pair o1 o2 r1 Hsame Hset) as (r2 & H12 & H2).
  destruct (own_options_apply post r2) as (r3 & Hpost & _).
  rewrite !fmap_app, !fmap_cons.
  rewrite (RunContainer_in_order _ r3).
  - rewrite (RunContainer_in_order _ r3); [reflexivity|].
    eapply appliedInOrder_app; [exact Hpre|].
    apply (appliedInOrder_app [optionOf o2] _ _ _ _ H2 Hpost).
  - eapply appliedInOrder_app; [exact Hpre|].
    apply (appliedInOrder_app [optionOf o1; optionOf o2] _ _ _ _ H12 Hpost).
Qed.

(** X8: [RunContainer] does not recover from a panic: when the options
    before some option apply without error and that option panics, the
    launch panics with the same value and makes no call to the framework,
    whatever options follow. *)
Theorem RunContainer_option_panics
    (pre post : list CustomizeRequestOption) (opt : CustomizeRequestOption)
    (r1 : GenericContainerRequest) (p : panic)
    (Hpre : appliedInOrder pre baseRequest r1)
    (Hopt : Customize opt addr r1 = Panicked p) :
  RunContainer (pre ++ opt :: post) = Panic p /\
  forall answer,
    run answer (RunContainer (pre ++ opt :: post)) = Panicked p /\
    count_calls answer (RunContainer (pre ++ opt :: post)) = 0.
Proof.
  assert (Hrun : RunContainer (pre ++ opt :: post) = Panic p).
  { unfold RunContainer.
    change (applyOptions (pre ++ opt :: post) _)
      with (applyOptions (pre ++ opt :: post) baseRequest).
    rewrite (applyOptions_app_panic _ _ _ _ _ _ Hpre Hopt). reflexivity. }
  split; [exact Hrun|].
  intros answer. rewrite Hrun. split; reflexivity.
Qed.

(** X9: whatever the options, those of callers included, and whatever the
    framework answers, a launch that returns returns either a handle and a
    nil error or a nil handle and an error that wraps another error: never
    both, never neither, and never an error passed on unwrapped. *)
Theorem RunContainer_handle_or_error
    (opts : list CustomizeRequestOption)
    (answer : forall X, FrameworkCall X -> X) :
  match run answer (RunContainer opts) with
  | Returned result => handleOrWrappedError result
  | Panicked _ => True
  end.
Proof.
  unfold RunContainer.
  match goal with
  | |- context [applyOptions opts ?r] =>
      destruct (applyOptions opts r) as [[[err|] r']|p] eqn:Hopts
  end; simpl.
  - eapply applyOptions_error_wrapped, Hopts.
  - destruct (answer _ (GenericContainer r')) as [c [e|]]; simpl.
    + eexists. reflexivity.
    + exact I.
  - exact I.
Qed.

(** X10: the port [ServicePort] asks the framework for is the port the
    launch exposed: for a launch with options of this package and a
    container the framework returns without error, [ServicePort] of the
    returned handle calls [MappedPort] on that very container, for the one
    port in the exposed ports of the request. *)
Theorem ServicePort_asks_exposed_port
    (os : list optionCall) (c : testcontainers.Container) :
  exists r' handle port k,
    RunContainer (optionOf <$> os) = Call (GenericContainer r') started /\
    started (c, None) = Ret (Some handle, None) /\
    ServicePort handle = Call (MappedPort c port) k /\
    ExposedPorts (embedded r') = [port].
Proof.
  destruct (RunContainer_own_options os)
    as (r' & Hrun & _ & _ & _ & Hp & _).
  exists r'. do 3 eexists.
  split; [exact Hrun|]. split; [reflexivity|]. split; [reflexivity|].
  exact Hp.
Qed.

(** X12: applied to any request, one a caller has filled in included, a
    list of options of this package applies without error and leaves the
    image of its last image option, the environment entries of its last
    namespace and log-level options, and one more hook entry for each of its
    time-to-live options after the entries that were there; the entries of
    the environment under other keys, the image where no image option is
    given, and every other field stay as the caller left them. *)
Theorem own_options_on_any_request
    (os : list optionCall) (r : GenericContainerRequest) :
  exists r',
    appliedInOrder (optionOf <$> os) r r' /\
    Image (embedded r')
    = default (Image (embedded r)) (last (omap imageOf os)) /\
    (forall k, index_ok (Env (embedded r')) k
               = envAfter os (index_ok (Env (embedded r)) k) k) /\
    LifecycleHooks (embedded r')
    = (LifecycleHooks (embedded r) ++ (hookEntry <$> omap ttlOf os))%list /\
    ExposedPorts (embedded r') = ExposedPorts (embedded r) /\
    WaitingFor (embedded r') = WaitingFor (embedded r) /\
    otherRequestFields (embedded r') = otherRequestFields (embedded r) /\
    Started r' = Started r /\
    otherGenericFields r' = otherGenericFields r.
Proof. apply own_options_apply. Qed.

(** The time-to-live command carries the namespace as it is: different
    namespaces give different commands. *)
Lemma nsupCommand_injective (ns1 ns2 : string) :
  ns1 <> ns2 -> nsupCommand ns1 <> nsupCommand ns2.
Proof.
  intros Hdiff Heq. apply Hdiff. unfold nsupCommand in Heq.
  injection Heq as Heq.
  apply (inj (String.app _)) in Heq.
  eapply append_inj_r, Heq.
Qed.

(** X11: two time-to-live options whose namespaces differ once the empty
    argument is read as [test] register hooks that execute different
    commands on a container: the namespace goes into the command as it is,
    and only the empty argument and [test] share a command. *)
Theorem WithTTLSupport_commands_differ
    (ns1 ns2 : string) (r : GenericContainerRequest)
    (c : testcontainers.Container)
    (Hdiff : (if decide (ns1 = "") then "test" else ns1)
             <> (if decide (ns2 = "") then "test" else ns2)) :
  exists r1 r2 hook1 hook2 cmd1 cmd2,
    Customize (WithTTLSupport ns1) addr r = Returned (None, r1) /\
    Customize (WithTTLSupport ns2) addr r = Returned (None, r2) /\
    LifecycleHooks (embedded r1)
    = (LifecycleHooks (embedded r) ++
       [ {| PostStarts := [hook1]; otherHooks := noOtherHooks |} ])%list /\
    LifecycleHooks (embedded r2)
    = (LifecycleHooks (embedded r) ++
       [ {| PostStarts := [hook2]; otherHooks := noOtherHooks |} ])%list /\
    firstExec (hook1 c) = Some cmd1 /\
    firstExec (hook2 c) = Some cmd2 /\
    cmd1 <> cmd2.
Proof.
  do 6 eexists.
  split; [apply WithTTLSupport_addr|].
  split; [apply WithTTLSupport_addr|].
  split; [reflexivity|]. split; [reflexivity|].
  split; [reflexivity|]. split; [reflexivity|].
  apply nsupCommand_injective, Hdiff.
Qed.

End CompositionFacts.

(** ** The definitions evaluated on the sample framework *)

#[local] Existing Instance sampleFramework.
#[local] Existing Instance sampleWaitStrategy.

Import testcontainers aerospike.

(** The unit tests of the repository, which start from the zero request. *)
Example TestWithNamespaceOption :
  exists r,
    Customize (WithNamespace "custom-namespace") addr zeroRequest
    = Returned (None, r) /\
    index (Env (embedded r)) "NAMESPACE" = "custom-namespace".
Proof. eexists. split; reflexivity. Qed.

Example TestWithLogLevelOption :
  exists r,
    Customize (WithLogLevel "debug") addr zeroRequest = Returned (None, r) /\
    index (Env (embedded r)) "AEROSPIKE_LOG_LEVEL" = "debug".
Proof. eexists. split; reflexivity. Qed.

Example TestWithEnterpriseEditionOption :
  exists r,
    Customize WithEnterpriseEdition addr zeroRequest = Returned (None, r) /\
    Image (embedded r) = "aerospike/aerospike-server-enterprise:8.0".
Proof. eexists. split; reflexivity. Qed.

(** A namespace of the fuzz corpus: NUL, newline and tab bytes and the
    three bytes of a UTF-8 encoded character pass through as they are. *)
Example FuzzWithNamespace_bytes :
  let s :=
    String (Ascii.ascii_of_nat 0)
      (String (Ascii.ascii_of_nat 10)
         (String (Ascii.ascii_of_nat 9)
            (String (Ascii.ascii_of_nat 229)
               (String (Ascii.ascii_of_nat 144)
                  (String (Ascii.ascii_of_nat 141) ""))))) in
  exists r,
    Customize (WithNamespace s) addr zeroRequest = Returned (None, r) /\
    index (Env (embedded r)) "NAMESPACE" = s.
Proof. eexists. split; reflexivity. Qed.

(** The order of the options decides: the request that reaches the framework
    carries the namespace of the later of two namespace options. *)
Example RunContainer_order :
  exists r1 r2,
    RunContainer [WithNamespace "a"; WithNamespace "b"]
    = Call (GenericContainer r1) started /\
    RunContainer [WithNamespace "b"; WithNamespace "a"]
    = Call (GenericContainer r2) started /\
    index (Env (embedded r1)) "NAMESPACE" = "b" /\
    index (Env (embedded r2)) "NAMESPACE" = "a".
Proof. do 2 eexists. repeat split. Qed.

Example RunContainer_healthy :
  run healthy (RunContainer [aerospike.WithImage "aerospike/aerospike-server:7.2";
                             WithNamespace "test"])
  = Returned (Some {| embeddedContainer := "aerospike-1" |}, None).
Proof. reflexivity. Qed.

Example RunContainer_failing :
  run failing (RunContainer [WithNamespace "namespace"; WithEnterpriseEdition])
  = Returned
      (None,
       Some (wrapError "failed to start Aerospike: docker: daemon not reachable"
               (errorString "docker: daemon not reachable"))).
Proof. reflexivity. Qed.

Example RunContainer_rejected :
  RunContainer [WithNamespace "namespace"; rejecting "no"; WithEnterpriseEdition]
  = Ret (None,
         Some (wrapError "failed to apply option: no" (errorString "no"))).
Proof. reflexivity. Qed.

Example ServicePort_healthy :
  run healthyContainer (ServicePort {| embeddedContainer := "aerospike-1" |})
  = Returned (32768%Z, None).
Proof. reflexivity. Qed.

Example portInt_edges :
  portInt "32768/tcp" = 32768%Z /\
  portInt "65535" = 65535%Z /\
  portInt "65536/tcp" = 0%Z /\
  portInt "8000-9000/tcp" = 0%Z /\
  portInt "/tcp" = 0%Z.
Proof. repeat split. Qed.

Example ServicePort_stopped :
  run stoppedContainer (ServicePort {| embeddedContainer := "aerospike-1" |})
  = Returned (0%Z, Some (errorString "port not found")).
Proof. reflexivity. Qed.

(** The namespace option given a nil request: the call panics, it does not
    return, so no error value comes back. *)
Lemma WithNamespace_null_returns_no_error :
  Customize (WithNamespace "test") null zeroRequest
  = Panicked nilPointerDereference /\
  ~ exists (e : error) (r' : GenericContainerRequest),
      Customize (WithNamespace "test") null zeroRequest = Returned (Some e, r').
Proof.
  split; [reflexivity|].
  intros (e & r' & Hret). vm_compute in Hret. discriminate Hret.
Qed.

(** The launch of the repository's [TestWithImage]: a custom image, then a
    namespace. *)
Lemma RunContainer_builds_and_delegates_witness :
  let opts :=
    [aerospike.WithImage "aerospike/aerospike-server:7.2";
     WithNamespace "test"] in
  let r' :=
    assigned "NAMESPACE" "test"
      (set_Image "aerospike/aerospike-server:7.2" baseRequest) in
  appliedInOrder opts baseRequest r' /\
  RunContainer opts = Call (GenericContainer r') started.
Proof.
  intros opts r'.
  assert (Hopts : appliedInOrder opts baseRequest r').
  { apply applied_next
      with (r1 := set_Image "aerospike/aerospike-server:7.2" baseRequest);
      [reflexivity|].
    apply applied_next with (r1 := r'); [reflexivity|].
    apply applied_none. }
  split; [exact Hopts|].
  apply (RunContainer_builds_and_delegates opts r' Hopts).
Defined.

(** A launch whose second option rejects the request, and a launch whose
    options all apply. *)
Lemma RunContainer_failures_witness :
  let pre := [WithNamespace "namespace"] in
  let opt := rejecting "image not allowed" in
  let post := [WithEnterpriseEdition] in
  let opts := [WithNamespace "namespace"; WithEnterpriseEdition] in
  let r1 := assigned "NAMESPACE" "namespace" baseRequest in
  let r' := set_Image "aerospike/aerospike-server-enterprise:8.0" r1 in
  let e := errorString "image not allowed" in
  appliedInOrder pre baseRequest r1 /\
  Customize opt addr r1 = Returned (Some e, r1) /\
  appliedInOrder opts baseRequest r' /\
  (exists err,
     RunContainer (pre ++ opt :: post) = Ret (None, Some err) /\
     Error err = "failed to apply option: image not allowed" /\
     Unwrap err = Some e) /\
  RunContainer opts = Call (GenericContainer r') started.
Proof.
  intros pre opt post opts r1 r' e.
  assert (Hpre : appliedInOrder pre baseRequest r1).
  { apply applied_next with (r1 := r1); [reflexivity | apply applied_none]. }
  assert (Hopt : Customize opt addr r1 = Returned (Some e, r1)).
  { reflexivity. }
  assert (Hopts : appliedInOrder opts baseRequest r').
  { apply applied_next with (r1 := r1); [reflexivity|].
    apply applied_next with (r1 := r'); [reflexivity | apply applied_none]. }
  split; [exact Hpre|]. split; [exact Hopt|]. split; [exact Hopts|].
  pose proof (RunContainer_failures pre post opts opt r1 r1 r' e Hpre Hopt Hopts)
    as [(err & Hstop & Hmsg & Hwrap & _) [Hgo _]].
  split; [|exact Hgo].
  exists err. split; [exact Hstop|]. split; [exact Hmsg | exact Hwrap].
Defined.

(** A launch with options of every kind, some of them repeated. *)
Example RunContainer_many_options :
  exists r,
    RunContainer
      (optionOf <$>
       [callWithNamespace "a"; callWithTTLSupport ""; callWithEnterpriseEdition;
        callWithLogLevel "debug"; callWithNamespace "b";
        callWithImage "aerospike/aerospike-server:7.2";
        callWithTTLSupport "bar"])
    = Call (GenericContainer r) started /\
    Image (embedded r) = "aerospike/aerospike-server:7.2" /\
    index (Env (embedded r)) "NAMESPACE" = "b" /\
    index (Env (embedded r)) "AEROSPIKE_LOG_LEVEL" = "debug" /\
    LifecycleHooks (embedded r) = [hookEntry "test"; hookEntry "bar"].
Proof. eexists. repeat split. Qed.

(** The option that assigns into the map without making it applies after a
    namespace option, which makes the map. *)
Example assigningUnmade_after_namespace :
  exists r,
    RunContainer [WithNamespace "test"; assigningUnmade "FEATURE" "on"]
    = Call (GenericContainer r) started /\
    index (Env (embedded r)) "FEATURE" = "on".
Proof. eexists. repeat split. Qed.

(** A namespace option and a log-level option, exchanged between an image
    option and a time-to-live option. *)
Lemma RunContainer_exchange_witness :
  let pre := [callWithImage "aerospike/aerospike-server:7.2"] in
  let post := [callWithTTLSupport ""] in
  let o1 := callWithNamespace "test" in
  let o2 := callWithLogLevel "debug" in
  targetOf o1 <> targetOf o2 /\
  RunContainer (optionOf <$> (pre ++ o1 :: o2 :: post)%list)
  = RunContainer (optionOf <$> (pre ++ o2 :: o1 :: post)%list).
Proof.
  intros pre post o1 o2.
  assert (Hdiff : targetOf o1 <> targetOf o2).
  { simpl. discriminate. }
  split; [exact Hdiff|].
  apply (RunContainer_exchange pre post o1 o2 Hdiff).
Defined.

(** An image option directly followed by the enterprise-edition option. *)
Lemma RunContainer_overridden_witness :
  let pre := [callWithNamespace "test"] in
  let post := [callWithLogLevel "debug"] in
  let o1 := callWithImage "aerospike/aerospike-server:7.2" in
  let o2 := callWithEnterpriseEdition in
  targetOf o1 = targetOf o2 /\
  targetOf o1 <> hookList /\
  RunContainer (optionOf <$> (pre ++ o1 :: o2 :: post)%list)
  = RunContainer (optionOf <$> (pre ++ o2 :: post)%list).
Proof.
  intros pre post o1 o2.
  assert (Hsame : targetOf o1 = targetOf o2).
  { reflexivity. }
  assert (Hset : targetOf o1 <> hookList).
  { simpl. discriminate. }
  split; [exact Hsame|]. split; [exact Hset|].
  apply (RunContainer_overridden pre post o1 o2 Hsame Hset).
Defined.

(** A launch whose first option assigns into the environment of the base
    request, which is the nil map. *)
Lemma RunContainer_option_panics_witness :
  let opt := assigningUnmade "FEATURE" "on" in
  let post := [WithNamespace "test"] in
  appliedInOrder [] baseRequest baseRequest /\
  Customize opt addr baseRequest = Panicked assignmentToNilMap /\
  RunContainer ([] ++ opt :: post) = Panic assignmentToNilMap.
Proof.
  intros opt post.
  assert (Hpre : appliedInOrder [] baseRequest baseRequest).
  { apply applied_none. }
  assert (Hopt : Customize opt addr baseRequest = Panicked assignmentToNilMap).
  { reflexivity. }
  split; [exact Hpre|]. split; [exact Hopt|].
  apply (RunContainer_option_panics [] post opt baseRequest
           assignmentToNilMap Hpre Hopt).
Defined.

(** The empty argument, which stands for [test], against another
    namespace. *)
Lemma WithTTLSupport_commands_differ_witness :
  (if decide ("" = "") then "test" else "")
  <> (if decide ("bar" = "") then "test" else "bar") /\
  exists r1 r2 hook1 hook2 cmd1 cmd2,
    Customize (WithTTLSupport "") addr zeroRequest = Returned (None, r1) /\
    Customize (WithTTLSupport "bar") addr zeroRequest = Returned (None, r2) /\
    LifecycleHooks (embedded r1)
    = [ {| PostStarts := [hook1]; otherHooks := noOtherHooks |} ] /\
    LifecycleHooks (embedded r2)
    = [ {| PostStarts := [hook2]; otherHooks := noOtherHooks |} ] /\
    firstExec (hook1 "aerospike-1") = Some cmd1 /\
    firstExec (hook2 "aerospike-1") = Some cmd2 /\
    cmd1 <> cmd2.
Proof.
  assert (Hdiff : (if decide ("" = "") then "test" else "")
                  <> (if decide ("bar" = "") then "test" else "bar")).
  { simpl. discriminate. }
  split; [exact Hdiff|].
  apply (WithTTLSupport_commands_differ "" "bar" zeroRequest
           ("aerospike-1" : @testcontainers.Container sampleFramework) Hdiff).
Defined.

(** The time-to-live option applied twice to the zero request, and applied
    once with the later argument: the hooks after the two applications hold
    the entry of the earlier one first, and are not the hooks the later
    application alone leaves. *)
Lemma WithTTLSupport_not_last_write_wins :
  (exists r1 r2,
     Customize (WithTTLSupport "a") addr zeroRequest = Returned (None, r1) /\
     Customize (WithTTLSupport "b") addr r1 = Returned (None, r2) /\
     LifecycleHooks (embedded r2) = [hookEntry "a"; hookEntry "b"]) /\
  ~ exists r1 r2 r2',
      Customize (WithTTLSupport "a") addr zeroRequest = Returned (None, r1) /\
      Customize (WithTTLSupport "b") addr r1 = Returned (None, r2) /\
      Customize (WithTTLSupport "b") addr zeroRequest = Returned (None, r2') /\
      LifecycleHooks (embedded r2) = LifecycleHooks (embedded r2').
Proof.
  split.
  - do 2 eexists. repeat split.
  - intros (r1 & r2 & r2' & H1 & H2 & H3 & Hhooks).
    rewrite WithTTLSupport_addr in H1. injection H1 as <-.
    rewrite WithTTLSupport_addr in H2. injection H2 as <-.
    rewrite WithTTLSupport_addr in H3. injection H3 as <-.
    apply (f_equal length) in Hhooks. simpl in Hhooks. discriminate Hhooks.
Qed.
